(** * A shallow embedding of [MainWindow] of the image tagging GUI
    (src/image-tagging-gui/main_window.py) and of the collaborators it wires
    together.

    [MainWindow] is modelled as a state-and-error monad over a [Window]
    record that holds everything the window owns: the settings store, the
    image list model, the current index of the image list's selection
    model, the image tag list model, the image tags editor's remembered
    index, the image viewer, the tag counter model, the central stacked
    widget and the application font.  Python exceptions are the error
    side of the monad, and a trace of observable events (settings reads
    and writes, selection-model calls, signal emissions) records the order
    in which the code performs its effects.

    The collaborators whose code is not part of the source (ImageListModel,
    ImageTagsEditor, ImageViewer, TagCounterModel) are modelled from the
    spec; the Qt classes used directly by the main window (QItemSelectionModel,
    QStringListModel, QAbstractListModel.index) follow the toolkit. *)

From Stdlib Require Import String Ascii ZArith List.
From stdpp Require Import base gmap strings list.

Open Scope Z_scope.

(* ------------------------------------------------------------------ *)
(** ** Data *)

(** A value handed back by QSettings: an int written by [setValue], a
    string, or a QByteArray (window geometry and state).  A str is
    modelled by its code points in the range U+0000-U+00FF, one per
    character of a [string]; a QByteArray by its bytes. *)
Inductive SVal :=
| SInt (z : Z)
| SStr (s : string)
| SBytes (b : string).

(** An image entry of the image list model: its path and its tags. *)
Record Image := mkImage {
  image_path : string;
  image_tags : list string
}.

(** The pages of the central QStackedWidget. *)
Inductive Panel :=
| LoadDirectoryWidget
| ImageViewerWidget.

(** Python exceptions that the modelled code can raise. *)
Inductive Exn :=
| TypeError
| ValueError
| OverflowError.

(** The QSettings store: one value per key. *)
Definition Store : Type := list (string * SVal).

(** [settings.value(k)]: [None] for a missing key. *)
Fixpoint store_lookup (k : string) (s : Store) : option SVal :=
  match s with
  | [] => None
  | (k', v) :: r => if String.eqb k k' then Some v else store_lookup k r
  end.

(** [settings.setValue(k, v)]: overwrites the key's value, or adds it. *)
Fixpoint store_insert (k : string) (v : SVal) (s : Store) : Store :=
  match s with
  | [] => [(k, v)]
  | (k', v') :: r =>
      if String.eqb k k' then (k, v) :: r else (k', v') :: store_insert k v r
  end.

Record Window := mkWindow {
  settings : Store;                   (* self.settings *)
  images : list Image;                (* self.image_list_model.images *)
  current : option nat;               (* selection model's current index *)
  tag_list : list string;             (* image_tag_list_model.stringList() *)
  editor_index : option nat;          (* image_tags_editor.image_index *)
  viewer_index : option nat;          (* image shown by image_viewer *)
  tag_counts : gmap string nat;       (* tag_counter_model's table *)
  central : Panel;                    (* centralWidget().currentWidget() *)
  geometry : string;                  (* saveGeometry() *)
  window_state : string;              (* saveState() *)
  maximized : bool;
  font_size : option Z                (* app.font().pointSize() *)
}.

Definition set_settings (s : Store) (w : Window) : Window :=
  mkWindow s (images w) (current w) (tag_list w) (editor_index w)
    (viewer_index w) (tag_counts w) (central w) (geometry w)
    (window_state w) (maximized w) (font_size w).
Definition set_images (l : list Image) (w : Window) : Window :=
  mkWindow (settings w) l (current w) (tag_list w) (editor_index w)
    (viewer_index w) (tag_counts w) (central w) (geometry w)
    (window_state w) (maximized w) (font_size w).
Definition set_current (i : option nat) (w : Window) : Window :=
  mkWindow (settings w) (images w) i (tag_list w) (editor_index w)
    (viewer_index w) (tag_counts w) (central w) (geometry w)
    (window_state w) (maximized w) (font_size w).
Definition set_tag_list (l : list string) (w : Window) : Window :=
  mkWindow (settings w) (images w) (current w) l (editor_index w)
    (viewer_index w) (tag_counts w) (central w) (geometry w)
    (window_state w) (maximized w) (font_size w).
Definition set_editor_index (i : option nat) (w : Window) : Window :=
  mkWindow (settings w) (images w) (current w) (tag_list w) i
    (viewer_index w) (tag_counts w) (central w) (geometry w)
    (window_state w) (maximized w) (font_size w).
Definition set_viewer_index (i : option nat) (w : Window) : Window :=
  mkWindow (settings w) (images w) (current w) (tag_list w) (editor_index w)
    i (tag_counts w) (central w) (geometry w)
    (window_state w) (maximized w) (font_size w).
Definition set_tag_counts (c : gmap string nat) (w : Window) : Window :=
  mkWindow (settings w) (images w) (current w) (tag_list w) (editor_index w)
    (viewer_index w) c (central w) (geometry w)
    (window_state w) (maximized w) (font_size w).
Definition set_central (p : Panel) (w : Window) : Window :=
  mkWindow (settings w) (images w) (current w) (tag_list w) (editor_index w)
    (viewer_index w) (tag_counts w) p (geometry w)
    (window_state w) (maximized w) (font_size w).
Definition set_geometry (g : string) (w : Window) : Window :=
  mkWindow (settings w) (images w) (current w) (tag_list w) (editor_index w)
    (viewer_index w) (tag_counts w) (central w) g
    (window_state w) (maximized w) (font_size w).
Definition set_window_state (s : string) (w : Window) : Window :=
  mkWindow (settings w) (images w) (current w) (tag_list w) (editor_index w)
    (viewer_index w) (tag_counts w) (central w) (geometry w)
    s (maximized w) (font_size w).
Definition set_maximized (b : bool) (w : Window) : Window :=
  mkWindow (settings w) (images w) (current w) (tag_list w) (editor_index w)
    (viewer_index w) (tag_counts w) (central w) (geometry w)
    (window_state w) b (font_size w).
Definition set_font_size_field (n : option Z) (w : Window) : Window :=
  mkWindow (settings w) (images w) (current w) (tag_list w) (editor_index w)
    (viewer_index w) (tag_counts w) (central w) (geometry w)
    (window_state w) (maximized w) n.

(** Observable events, in the order the code performs them. *)
Inductive Ev :=
| EvContains (k : string)              (* settings.contains(k) *)
| EvValue (k : string)                 (* settings.value(k) *)
| EvSetValue (k : string) (v : SVal)   (* settings.setValue(k, v) *)
| EvDialog (initial : option SVal)     (* QFileDialog.getExistingDirectory *)
| EvReload (p : string)                (* image_list_model.load_directory *)
| EvClearCurrent                       (* selection_model.clearCurrentIndex *)
| EvSetCurrent (i : option nat)        (* list_view.setCurrentIndex *)
| EvCurrentChanged (i : option nat)    (* currentChanged emitted *)
| EvSetCentral (p : Panel)             (* centralWidget().setCurrentWidget *)
| EvBaseClose.                         (* super().closeEvent(event) *)

(* ------------------------------------------------------------------ *)
(** ** The monad: state, Python exceptions and an event trace *)

Definition M (A : Type) : Type := Window -> (Exn + A) * Window * list Ev.

Global Instance M_ret : MRet M := fun A a w => (inr a, w, []).
Global Instance M_bind : MBind M := fun A B k m w =>
  match m w with
  | (inl e, w1, t1) => (inl e, w1, t1)
  | (inr a, w1, t1) =>
      match k a w1 with
      | (r, w2, t2) => (r, w2, t1 ++ t2)
      end
  end.

(** Sequencing that elaborates the first computation before the
    continuation, so that bound values have known types. *)
Definition bindM {A B} (m : M A) (k : A -> M B) : M B := mbind k m.
Notation "'let*' x ':=' m 'in' k" := (bindM m (fun x => k))
  (at level 200, x name, m at level 100, k at level 200).

Definition get : M Window := fun w => (inr w, w, []).
Definition modify (f : Window -> Window) : M unit := fun w => (inr tt, f w, []).
Definition emit (e : Ev) : M unit := fun w => (inr tt, w, [e]).
Definition raise {A} (e : Exn) : M A := fun w => (inl e, w, []).
Definition lift {A} (r : Exn + A) : M A :=
  match r with inl e => raise e | inr a => mret a end.

Definition result {A} (r : (Exn + A) * Window * list Ev) : Exn + A :=
  fst (fst r).
Definition final {A} (r : (Exn + A) * Window * list Ev) : Window :=
  snd (fst r).
Definition trace {A} (r : (Exn + A) * Window * list Ev) : list Ev := snd r.

(* ------------------------------------------------------------------ *)
(** ** Python builtins used by the code *)

(** [str.isspace()] on the code points U+0000-U+00FF: the characters
    [int()] strips around a str. *)
Definition is_py_space (c : ascii) : bool :=
  match nat_of_ascii c with
  | 9%nat | 10%nat | 11%nat | 12%nat | 13%nat
  | 28%nat | 29%nat | 30%nat | 31%nat | 32%nat | 133%nat | 160%nat => true
  | _ => false
  end.

(** The ASCII whitespace [int()] strips around a bytes-like object. *)
Definition is_bytes_space (c : ascii) : bool :=
  match nat_of_ascii c with
  | 9%nat | 10%nat | 11%nat | 12%nat | 13%nat | 32%nat => true
  | _ => false
  end.

Fixpoint drop_spaces (sp : ascii -> bool) (l : list ascii) : list ascii :=
  match l with
  | c :: r => if sp c then drop_spaces sp r else l
  | [] => []
  end.

(** Stripping the characters [sp] holds for at both ends. *)
Definition py_strip (sp : ascii -> bool) (l : list ascii) : list ascii :=
  rev (drop_spaces sp (rev (drop_spaces sp l))).

(** Decimal digits: the only characters of U+0000-U+00FF with a decimal
    value are 0-9. *)
Definition digit_value (c : ascii) : option Z :=
  let n := Z.of_nat (nat_of_ascii c) in
  if (48 <=? n) && (n <=? 57) then Some (n - 48) else None.

(** Decimal digits, single underscores allowed between digits. *)
Fixpoint py_digits (l : list ascii) (acc : Z) (after_digit : bool) : option Z :=
  match l with
  | [] => if after_digit then Some acc else None
  | c :: r =>
      match digit_value c with
      | Some d => py_digits r (acc * 10 + d) true
      | None =>
          if after_digit && bool_decide (c = "_"%char)
          then py_digits r acc false else None
      end
  end.

(** The literal [int()] accepts (base 10), once the whitespace [sp] is
    stripped. *)
Definition py_int_literal (sp : ascii -> bool) (s : string) : option Z :=
  match py_strip sp (list_ascii_of_string s) with
  | "-"%char :: r => option_map Z.opp (py_digits r 0 false)
  | "+"%char :: r => py_digits r 0 false
  | l => py_digits l 0 false
  end.

(** [int(v)] on a value returned by [settings.value]: [None] (a missing
    key) raises TypeError; a str, and a QByteArray through the buffer
    protocol, are parsed, and an unparsable one raises ValueError. *)
Definition py_int (v : option SVal) : Exn + Z :=
  match v with
  | None => inl TypeError
  | Some (SInt z) => inr z
  | Some (SStr s) =>
      match py_int_literal is_py_space s with
      | Some z => inr z
      | None => inl ValueError
      end
  | Some (SBytes b) =>
      match py_int_literal is_bytes_space b with
      | Some z => inr z
      | None => inl ValueError
      end
  end.

(** Whether a Python int fits the C int a PySide argument is converted to. *)
Definition in_c_int (k : Z) : bool := (- 2 ^ 31 <=? k) && (k <? 2 ^ 31).

(** PySide's conversion of a Python int argument to a C int: OverflowError
    outside its range. *)
Definition c_int (k : Z) : Exn + Z :=
  if in_c_int k then inr k else inl OverflowError.

(** [index.row()] of a QModelIndex: -1 for the invalid index. *)
Definition row (i : option nat) : Z :=
  match i with Some n => Z.of_nat n | None => -1 end.

(** [QAbstractListModel.index(k)]: valid iff [0 <= k < rowCount()]. *)
Definition model_index (imgs : list Image) (k : Z) : option nat :=
  if (0 <=? k) && (k <? Z.of_nat (length imgs)) then Some (Z.to_nat k)
  else None.

(** Tags of the image at an index; none for the invalid index. *)
Definition tags_at (imgs : list Image) (i : option nat) : list string :=
  match i with
  | Some n => match imgs !! n with Some img => image_tags img | None => [] end
  | None => []
  end.

(** Modelled from the spec: TagCounterModel.count_tags (missing from the
    source) recomputes the table from scratch as the number of occurrences
    of each tag over all images' tag lists. *)
Definition count_tags (imgs : list Image) : gmap string nat :=
  fold_left (fun (m : gmap string nat) t => <[t := S (default 0%nat (m !! t))]> m)
    (concat (map image_tags imgs)) ∅.

(* ------------------------------------------------------------------ *)
(** ** QStringListModel: the image tag list model's edit operations *)

(** Edits the image tags editor performs on the image tag list model. *)
Inductive TagOp :=
| TSetData (r : nat) (s : string)        (* setData(index(r), s) *)
| TInsertRows (r count : nat)            (* insertRows(r, count) *)
| TRemoveRows (r count : nat)            (* removeRows(r, count) *)
| TMoveRow (src dst : nat).              (* moveRows(src, 1, dst) *)

(** The signal the tag list model emits for an accepted edit. *)
Inductive TagSignal :=
| TagDataChanged
| TagRowsInserted
| TagRowsRemoved
| TagRowsMoved.

(** QStringListModel's handling of each edit: [None] when Qt refuses it, or
    (for [setData]) when the row already holds the value, in which case Qt 6
    changes nothing and emits no signal; otherwise the new string list and
    the emitted signal. *)
Definition apply_tag_op (op : TagOp) (l : list string)
  : option (list string * TagSignal) :=
  match op with
  | TSetData r s =>
      if decide (r < length l)%nat then
        if decide (l !! r = Some s) then None
        else Some (<[r := s]> l, TagDataChanged)
      else None
  | TInsertRows r count =>
      if decide (0 < count /\ r <= length l)%nat
      then Some (take r l ++ replicate count EmptyString ++ drop r l, TagRowsInserted)
      else None
  | TRemoveRows r count =>
      if decide (0 < count /\ r + count <= length l)%nat
      then Some (take r l ++ drop (r + count) l, TagRowsRemoved)
      else None
  | TMoveRow src dst =>
      if decide (src < length l /\ dst <= length l /\ dst <> src
                 /\ dst <> S src)%nat
      then
        match l !! src with
        | Some s =>
            let rest := take src l ++ drop (S src) l in
            let d := if decide (src < dst)%nat then pred dst else dst in
            Some (take d rest ++ s :: drop d rest, TagRowsMoved)
        | None => None
        end
      else None
  end.

(** The signals of the image list model: [dataChanged] from [update_tags]
    and the reset that rebuilding the list from a directory announces. *)
Inductive ListSignal :=
| ListDataChanged
| ListModelReset.

Section MainWindow.

(** Modelled from the spec: the image entries ImageListModel.load_directory
    (missing from the source) finds in a directory, in listing order with
    their tags; a missing directory yields the empty list. *)
Variable directory_images : string -> list Image.

(** Toolkit: whether the selection model drops its current index, without
    emitting [currentChanged], when the image list model is reset
    (QItemSelectionModel::reset blocks its own signals). *)
Variable reset_clears_current : bool.

(** Python: [str(Path(s))], pathlib's normalisation of a path string. *)
Variable path_of : string -> string.

(** PySide: the QByteArray a settings value converts to when passed to
    [restoreGeometry]/[restoreState]; [None] is a TypeError. *)
Variable to_qbytearray : option SVal -> option string.

(** Toolkit: the geometry [saveGeometry] reports after [restoreGeometry(b)]
    on a window whose geometry was [g]; Qt need not report [b] back, and
    leaves the geometry as it was for data it rejects. *)
Variable qt_restore_geometry : string -> string -> string.

(** Toolkit: the same for [restoreState] and [saveState]. *)
Variable qt_restore_state : string -> string -> string.

(** *** QSettings *)

Definition settings_contains (k : string) : M bool :=
  emit (EvContains k);;
  let* w := get in
  mret (match store_lookup k (settings w) with Some _ => true | None => false end).

Definition settings_value (k : string) : M (option SVal) :=
  emit (EvValue k);;
  let* w := get in
  mret (store_lookup k (settings w)).

Definition settings_setValue (k : string) (v : SVal) : M unit :=
  emit (EvSetValue k v);;
  modify (fun w => set_settings (store_insert k v (settings w)) w).

(** *** Collaborators modelled from the spec *)

(** Modelled from the spec: ImageViewer.load_image (missing from the
    source) shows the image at the given index. *)
Definition image_viewer_load_image (i : option nat) : M unit :=
  modify (set_viewer_index i).

(** Modelled from the spec: ImageTagsEditor.load_image_tags (missing from
    the source) remembers the index and loads that image's tags into the
    image tag list model (empty when nothing is selected).  setStringList
    resets the string list model, a signal the main window does not
    connect. *)
Definition image_tags_editor_load_image_tags (i : option nat) : M unit :=
  modify (fun w => set_tag_list (tags_at (images w) i) (set_editor_index i w)).

(** The main window's slot on the image list model's [dataChanged]
    (lines 57-59): [self.tag_counter_model.count_tags(images)]. *)
Definition recount_tags : M unit :=
  modify (fun w => set_tag_counts (count_tags (images w)) w).

(** The slots connected to each signal of the image list model: the main
    window connects [dataChanged] only; a reset reaches the selection
    model of the image list view. *)
Definition on_image_list_signal (s : ListSignal) : M unit :=
  match s with
  | ListDataChanged => recount_tags
  | ListModelReset =>
      if reset_clears_current then modify (set_current None) else mret ()
  end.

(** Modelled from the spec: ImageListModel.load_directory (missing from the
    source) rebuilds the image list from the directory and announces it. *)
Definition image_list_model_load_directory (p : string) : M unit :=
  emit (EvReload p);;
  modify (set_images (directory_images p));;
  on_image_list_signal ListModelReset.

(** Modelled from the spec: ImageListModel.update_tags (missing from the
    source) replaces the tags of the image at a valid index and emits
    [dataChanged]. *)
Definition image_list_model_update_tags (i : option nat) (tags : list string)
  : M unit :=
  let* w := get in
  match i with
  | Some n =>
      match images w !! n with
      | Some img =>
          modify (set_images (<[n := mkImage (image_path img) tags]> (images w)));;
          on_image_list_signal ListDataChanged
      | None => mret ()
      end
  | None => mret ()
  end.

(** *** MainWindow *)

(** [update_image_list_model_tags] (lines 131-135). *)
Definition update_image_list_model_tags : M unit :=
  let* w := get in
  image_list_model_update_tags (editor_index w) (tag_list w).

(** The slots connected to the image tag list model (lines 62-67):
    [dataChanged], [rowsRemoved] and [rowsMoved]; [rowsInserted] is not
    connected. *)
Definition on_tag_list_signal (s : TagSignal) : M unit :=
  match s with
  | TagDataChanged | TagRowsRemoved | TagRowsMoved => update_image_list_model_tags
  | TagRowsInserted => mret ()
  end.

(** An edit of the image tag list model and the slots it triggers. *)
Definition edit_tags (op : TagOp) : M unit :=
  let* w := get in
  match apply_tag_op op (tag_list w) with
  | Some (l, s) => modify (set_tag_list l);; on_tag_list_signal s
  | None => mret ()
  end.

(** The slots connected to [currentChanged] (lines 51-56), in order. *)
Definition current_changed (i : option nat) : M unit :=
  emit (EvCurrentChanged i);;
  image_viewer_load_image i;;
  image_tags_editor_load_image_tags i;;
  settings_setValue "image_index" (SInt (row i)).

(** [list_view.setCurrentIndex(i)]: the selection model emits
    [currentChanged] only when the index differs from the current one. *)
Definition set_current_index (i : option nat) : M unit :=
  emit (EvSetCurrent i);;
  let* w := get in
  if decide (i = current w) then mret ()
  else modify (set_current i);; current_changed i.

(** [selection_model.clearCurrentIndex()]: emits [currentChanged] only
    when there was a current index. *)
Definition clear_current_index : M unit :=
  emit EvClearCurrent;;
  let* w := get in
  match current w with
  | Some _ => modify (set_current None);; current_changed None
  | None => mret ()
  end.

Definition set_current_widget (p : Panel) : M unit :=
  emit (EvSetCentral p);;
  modify (set_central p).

(** [load_directory] (lines 77-85). *)
Definition load_directory (path : string) (select_index : Z) : M unit :=
  settings_setValue "directory_path" (SStr path);;
  image_list_model_load_directory path;;
  clear_current_index;;
  let* k := lift (c_int select_index) in
  let* w := get in
  set_current_index (model_index (images w) k);;
  set_current_widget ImageViewerWidget.

(** [select_and_load_directory] (lines 87-99); [answer] is the directory
    the dialog returns, the empty string when it is cancelled. *)
Definition select_and_load_directory (answer : string) : M unit :=
  let* has_path := settings_contains "directory_path" in
  let* initial := (if has_path then settings_value "directory_path"
             else mret (Some (SStr EmptyString))) in
  emit (EvDialog initial);;
  if bool_decide (answer = EmptyString) then mret ()
  else load_directory (path_of answer) 0.

(** [Path(v)] on a settings value. *)
Definition py_Path (v : option SVal) : Exn + string :=
  match v with
  | Some (SStr s) => inr (path_of s)
  | _ => inl TypeError
  end.

Definition restore_geometry (v : option SVal) : M unit :=
  match to_qbytearray v with
  | Some b => modify (fun w => set_geometry (qt_restore_geometry b (geometry w)) w)
  | None => raise TypeError
  end.

Definition restore_state (v : option SVal) : M unit :=
  match to_qbytearray v with
  | Some b =>
      modify (fun w => set_window_state (qt_restore_state b (window_state w)) w)
  | None => raise TypeError
  end.

(** [set_font_size] (lines 137-142): [int()] of the stored value, handed
    to [setPointSize] as a C int; Qt ignores a non-positive size. *)
Definition set_font_size : M unit :=
  let* v := settings_value "font_size" in
  let* n := lift (py_int v) in
  let* n := lift (c_int n) in
  modify (fun w => set_font_size_field
                     (if 0 <? n then Some n else font_size w) w).

(** [restore] (lines 144-160). *)
Definition restore : M unit :=
  let* has_geometry := settings_contains "geometry" in
  (if has_geometry
   then (let* g := settings_value "geometry" in restore_geometry g)
   else modify (set_maximized true));;
  let* st := settings_value "window_state" in
  restore_state st;;
  let* has_index := settings_contains "image_index" in
  let* image_index :=
    (if has_index
     then (let* v := settings_value "image_index" in lift (py_int v))
     else mret 0) in
  let* has_path := settings_contains "directory_path" in
  (if has_path
   then (let* v := settings_value "directory_path" in
         let* p := lift (py_Path v) in
         load_directory p image_index)
   else mret ());;
  set_font_size.

(** [closeEvent] (lines 71-75). *)
Definition closeEvent : M unit :=
  let* w := get in
  settings_setValue "geometry" (SBytes (geometry w));;
  let* w := get in
  settings_setValue "window_state" (SBytes (window_state w));;
  emit EvBaseClose.

End MainWindow.

(* ------------------------------------------------------------------ *)
(** ** Observations on traces *)

(** The selection-model and central-widget calls of a trace, in order. *)
Definition is_panel_or_selection_call (e : Ev) : bool :=
  match e with
  | EvClearCurrent | EvSetCurrent _ | EvSetCentral _ => true
  | _ => false
  end.

Definition selection_calls (t : list Ev) : list Ev :=
  filter (fun e => is_panel_or_selection_call e = true) t.

(** Keys read with [settings.value] before any [settings.contains] of the
    same key in the trace. *)
Fixpoint unchecked_reads_from (checked : list string) (t : list Ev)
  : list string :=
  match t with
  | [] => []
  | EvContains k :: r => unchecked_reads_from (k :: checked) r
  | EvValue k :: r =>
      if existsb (String.eqb k) checked then unchecked_reads_from checked r
      else k :: unchecked_reads_from checked r
  | _ :: r => unchecked_reads_from checked r
  end.

Definition unchecked_reads (t : list Ev) : list string :=
  unchecked_reads_from [] t.

(** Every [currentChanged] emission is directly followed by the write of
    its row to [image_index]. *)
Definition rows_written (t : list Ev) : Prop :=
  forall pre i post, t = pre ++ EvCurrentChanged i :: post ->
    head post = Some (EvSetValue "image_index" (SInt (row i))).

(** A structural form of [rows_written]. *)
Fixpoint rows_ok (t : list Ev) : Prop :=
  match t with
  | [] => True
  | EvCurrentChanged i :: r =>
      head r = Some (EvSetValue "image_index" (SInt (row i))) /\ rows_ok r
  | _ :: r => rows_ok r
  end.

(** The image tag list model shows the tags of the image at the current
    index (nothing when there is none), and the editor writes back to that
    same index. *)
Definition editor_in_sync (w : Window) : Prop :=
  editor_index w = current w /\ tag_list w = tags_at (images w) (current w).

(** ** Helpers for the proofs *)

(** No [settings.contains] nor [settings.value] in a trace. *)
Definition no_reads (t : list Ev) : Prop :=
  Forall (fun e => match e with EvContains _ | EvValue _ => False | _ => True end) t.

(** The index [restore] hands to [load_directory]: [int] of the stored
    [image_index] when the key is present, 0 otherwise (an unparsable
    stored value raises before any load). *)
Definition restored_index (s : Store) : Z :=
  match store_lookup "image_index" s with
  | Some v => match py_int (Some v) with inr z => z | inl _ => 0 end
  | None => 0
  end.

(** Symbolic execution: [runs m w P] says that the outcome of [m] from
    [w] satisfies [P]. *)
Definition runs {A} (m : M A) (w : Window)
  (P : Exn + A -> Window -> list Ev -> Prop) : Prop :=
  match m w with (r, w', t) => P r w' t end.

Definition is_raised {A} (r : Exn + A) : bool :=
  match r with inl _ => true | inr _ => false end.

(* ------------------------------------------------------------------ *)
(** ** Concrete sessions *)

(** Two tagged images. *)
Definition demo_images : list Image :=
  [mkImage "a.png" ["cat"]; mkImage "b.png" ["dog"; "sky"]].

(** A window showing [demo_images] with the first image selected and its
    tags loaded into the editor. *)
Definition demo_window : Window :=
  mkWindow [] demo_images (Some 0%nat) ["cat"] (Some 0%nat) (Some 0%nat) ∅
    ImageViewerWidget EmptyString EmptyString false None.

(** A freshly constructed window, before [restore], on a first launch. *)
Definition fresh_window : Window :=
  mkWindow [] [] None [] None None ∅ LoadDirectoryWidget EmptyString
    EmptyString false None.

(** The settings a previous session left: geometry and state as written by
    [closeEvent], and a font size. *)
Definition saved_settings : Store :=
  [("geometry", SBytes "g"); ("window_state", SBytes "s");
   ("font_size", SInt 11)].

Definition saved_window : Window := set_settings saved_settings fresh_window.


(** A conversion to QByteArray that accepts exactly the byte arrays. *)
Definition bytes_value (v : option SVal) : option string :=
  match v with Some (SBytes b) => Some b | _ => None end.

(** The same session with an [image_index] beyond the C int range. *)
Definition overflow_index_window : Window :=
  set_settings [("geometry", SBytes "g"); ("window_state", SBytes "s");
                ("image_index", SInt 2147483648);
                ("directory_path", SStr "photos");
                ("font_size", SInt 11)] fresh_window.

(** A toolkit that accepts any geometry or state data and reports it back. *)
Definition accept_data (b g : string) : string := b.

(** A session that loaded the directory "photos" with its second image
    selected, then closed. *)
Definition session_window : Window :=
  set_settings [("geometry", SBytes "g"); ("window_state", SBytes "s");
                ("image_index", SInt 1); ("directory_path", SStr "photos");
                ("font_size", SInt 11)] fresh_window.


(** Unfolding of the monad and of the operations. *)
Ltac unfold_monad :=
  unfold lift, bindM, mbind, M_bind, mret, M_ret, get, modify, emit, raise,
    result, final, trace in *.

Ltac unfold_ops_but_load :=
  unfold closeEvent, restore, set_font_size, restore_state, restore_geometry,
    py_Path, select_and_load_directory, set_current_widget,
    clear_current_index, set_current_index, current_changed, edit_tags,
    on_tag_list_signal, update_image_list_model_tags,
    image_list_model_update_tags, image_list_model_load_directory,
    on_image_list_signal, recount_tags, image_tags_editor_load_image_tags,
    image_viewer_load_image, settings_setValue, settings_value,
    settings_contains in *.

Ltac unfold_ops := unfold load_directory in *; unfold_ops_but_load.

Ltac run := unfold_ops; unfold_monad; simpl in *.

Section Proofs.

Variable directory_images : string -> list Image.
Variable reset_clears_current : bool.
Variable path_of : string -> string.
Variable to_qbytearray : option SVal -> option string.
Variable qt_restore_geometry : string -> string -> string.
Variable qt_restore_state : string -> string -> string.

(** C8: on close, the geometry and then the window state are written to the
    settings keys [geometry] and [window_state], and only then does the
    base class close the window. *)
Theorem closeEvent_saves_before_teardown (w : Window) :
  trace (closeEvent w) =
    [EvSetValue "geometry" (SBytes (geometry w));
     EvSetValue "window_state" (SBytes (window_state w));
     EvBaseClose]
  /\ settings (final (closeEvent w)) =
       store_insert "window_state" (SBytes (window_state w))
         (store_insert "geometry" (SBytes (geometry w)) (settings w)).
Proof. run. split; reflexivity. Qed.

(** C6: when the dialog is cancelled, [select_and_load_directory] returns
    normally and leaves the whole window (image list, selection, central
    panel, settings) as it was; it performs no write. *)
Theorem cancelled_dialog_is_noop (w : Window) :
  result (select_and_load_directory directory_images reset_clears_current
            path_of EmptyString w) = inr tt
  /\ final (select_and_load_directory directory_images reset_clears_current
              path_of EmptyString w) = w
  /\ (forall k v, EvSetValue k v ∉ trace (select_and_load_directory
                    directory_images reset_clears_current path_of EmptyString w)).
Proof.
  run. destruct (store_lookup "directory_path" (settings w)); simpl;
  (split; [reflexivity | split; [reflexivity | intros k v; set_solver]]).
Qed.

Lemma store_lookup_insert_eq (k : string) (v : SVal) (s : Store) :
  store_lookup k (store_insert k v s) = Some v.
Proof.
  induction s as [|[k' v'] s IH]; simpl; [by rewrite String.eqb_refl|].
  destruct (String.eqb k k') eqn:E; simpl; [by rewrite String.eqb_refl|].
  by rewrite E.
Qed.

Lemma store_lookup_insert_ne (k k' : string) (v : SVal) (s : Store) :
  k <> k' -> store_lookup k (store_insert k' v s) = store_lookup k s.
Proof.
  intros Hne. induction s as [|[k'' v''] s IH]; simpl.
  - by apply String.eqb_neq in Hne as ->.
  - destruct (String.eqb k' k'') eqn:E; simpl.
    + apply String.eqb_eq in E. subst k''.
      by apply String.eqb_neq in Hne as ->.
    + by rewrite IH.
Qed.

Ltac store_simpl :=
  repeat first
    [ rewrite store_lookup_insert_eq
    | rewrite store_lookup_insert_ne by (assumption || discriminate) ].

Lemma rows_ok_written (t : list Ev) : rows_ok t -> rows_written t.
Proof.
  intros Hok pre i post Ht. subst t. revert Hok.
  induction pre as [|e pre IH]; simpl; [tauto|].
  destruct e; simpl; try exact IH.
  intros [_ H]. exact (IH H).
Qed.

Lemma unchecked_reads_no_reads (c : list string) (t1 t2 : list Ev) :
  no_reads t1 -> unchecked_reads_from c (t1 ++ t2) = unchecked_reads_from c t2.
Proof.
  induction 1 as [|e t1 He _ IH]; [reflexivity|].
  destruct e; simpl in *; tauto.
Qed.

Lemma unchecked_reads_no_reads_nil (c : list string) (t : list Ev) :
  no_reads t -> unchecked_reads_from c t = [].
Proof.
  intros H. rewrite <- (app_nil_r t).
  rewrite unchecked_reads_no_reads by exact H. reflexivity.
Qed.

Ltac run_load w :=
  destruct w as [s0 imgs cur tl ed vw tc cen g st mx fs];
  run; unfold c_int; destruct reset_clears_current, cur; simpl;
  match goal with
  | |- context [in_c_int ?k] => destruct (in_c_int k) eqn:?
  end; simpl;
  try match goal with
  | |- context [model_index ?l ?k] => destruct (model_index l k) eqn:?
  end; simpl.

(** What [load_directory] does to the window, whatever the toolkit does on
    a model reset and whatever was selected before: an index outside the C
    int range raises in [index()], after the current index was cleared. *)
Lemma load_directory_facts (w : Window) (p : string) (k : Z) :
  let r := load_directory directory_images reset_clears_current p k w in
  result r = (if in_c_int k then inr tt else inl OverflowError)
  /\ images (final r) = directory_images p
  /\ current (final r)
     = (if in_c_int k then model_index (directory_images p) k else None)
  /\ (forall key, key <> "directory_path" -> key <> "image_index" ->
        store_lookup key (settings (final r)) = store_lookup key (settings w))
  /\ no_reads (trace r)
  /\ (forall q, EvReload q ∈ trace r -> q = p).
Proof.
  clear path_of to_qbytearray qt_restore_geometry qt_restore_state.
  run_load w.
  all: split; [reflexivity|split; [reflexivity|split; [reflexivity|split]]].
  all: try (intros key H1 H2; store_simpl; reflexivity).
  all: split; [unfold no_reads; repeat constructor|].
  all: intros q Hq; rewrite ?elem_of_cons, ?elem_of_nil in Hq;
    intuition congruence.
Qed.

(** C10: [load_directory] first writes [str(path)] to [directory_path],
    before the image list model is reloaded, so the path is stored whatever
    the directory holds (an empty list included); every [currentChanged]
    emission during the load, the one of the clearing step included, is
    directly followed by the write of its row (-1 for no index) to
    [image_index]; and the clearing step emits whenever the selection
    model still had a current index when it ran. *)
Theorem load_directory_persists_path_first (w : Window) (p : string) (k : Z) :
  let r := load_directory directory_images reset_clears_current p k w in
  (exists rest, trace r = EvSetValue "directory_path" (SStr p) :: EvReload p :: rest)
  /\ store_lookup "directory_path" (settings (final r)) = Some (SStr p)
  /\ rows_written (trace r)
  /\ (reset_clears_current = false -> current w <> None ->
      EvCurrentChanged None ∈ trace r
      /\ EvSetValue "image_index" (SInt (-1)) ∈ trace r).
Proof.
  clear path_of to_qbytearray qt_restore_geometry qt_restore_state.
  intros r. split; [|split; [|split]].
  - subst r. run_load w; eexists; reflexivity.
  - subst r. run_load w; store_simpl; reflexivity.
  - apply rows_ok_written. subst r. run_load w; repeat split.
  - intros Hr Hc. subst r. rewrite Hr in *.
    destruct w as [s0 imgs cur tl ed vw tc cen g st mx fs].
    simpl in Hc. destruct cur as [m|]; [|congruence].
    run; unfold c_int; destruct (in_c_int k); simpl;
    try destruct (model_index (directory_images p) k) eqn:?; simpl;
    split; set_solver.
Qed.

(** C7 (amended): for a target index that fits the C int [index()] takes,
    [load_directory] clears the current index, then sets it to the target,
    then shows the image viewer; whatever was selected before (the target
    itself included), a valid target ends up selected through a
    [currentChanged] emission, so the viewer and the editor load it.  For
    an index outside that range, [index()] raises OverflowError right after
    the clearing: the selection is not set and the panel is not switched. *)
Theorem load_directory_clear_select_show (w : Window) (p : string) (k : Z) :
  let r := load_directory directory_images reset_clears_current p k w in
  (in_c_int k = true ->
   selection_calls (trace r) =
     [EvClearCurrent; EvSetCurrent (model_index (directory_images p) k);
      EvSetCentral ImageViewerWidget]
   /\ central (final r) = ImageViewerWidget
   /\ (forall n, model_index (directory_images p) k = Some n ->
         EvCurrentChanged (Some n) ∈ trace r
         /\ current (final r) = Some n
         /\ viewer_index (final r) = Some n
         /\ editor_index (final r) = Some n
         /\ tag_list (final r) = tags_at (directory_images p) (Some n)))
  /\ (in_c_int k = false ->
      result r = inl OverflowError
      /\ selection_calls (trace r) = [EvClearCurrent]
      /\ central (final r) = central w
      /\ current (final r) = None).
Proof.
  clear path_of to_qbytearray qt_restore_geometry qt_restore_state.
  intros r. subst r. run_load w.
  all: split; intros Hk; try discriminate Hk.
  all: try (split; [reflexivity | split; [reflexivity | split; reflexivity]]).
  all: split; [reflexivity | split; [reflexivity |
         intros ? Hn; simplify_eq; repeat split; set_solver]].
Qed.

Ltac use_load :=
  match goal with
  | |- context [load_directory ?d ?b ?p ?k ?w] =>
      let F := fresh "F" in
      pose proof (load_directory_facts w p k) as F; cbv zeta in F;
      destruct (load_directory d b p k w) as [[?r ?w2] ?t2] eqn:?;
      unfold result, final, trace in F; simpl in F;
      destruct F as (-> & ? & ? & ? & ? & ?); simpl
  end.

Lemma runs_bind {A B} (m : M A) (k : A -> M B) (w : Window) P :
  runs m w (fun r w1 t1 =>
    match r with
    | inl e => P (inl e) w1 t1
    | inr a => runs (k a) w1 (fun r2 w2 t2 => P r2 w2 (t1 ++ t2))
    end) ->
  runs (mbind k m) w P.
Proof.
  unfold runs, mbind, M_bind.
  destruct (m w) as [[[e|a] w1] t1]; [tauto|].
  destruct (k a w1) as [[r2 w2] t2]. tauto.
Qed.

Lemma runs_ret {A} (a : A) (w : Window) P : P (inr a) w [] -> runs (mret a) w P.
Proof. exact id. Qed.

Lemma runs_get (w : Window) P : P (inr w) w [] -> runs get w P.
Proof. exact id. Qed.

Lemma runs_modify f (w : Window) P : P (inr tt) (f w) [] -> runs (modify f) w P.
Proof. exact id. Qed.

Lemma runs_emit e (w : Window) P : P (inr tt) w [e] -> runs (emit e) w P.
Proof. exact id. Qed.

Lemma runs_raise {A} e (w : Window) (P : Exn + A -> _) :
  P (inl e) w [] -> runs (raise e) w P.
Proof. exact id. Qed.

Lemma runs_load (p : string) (k : Z) (w : Window) P :
  (forall w2 t2,
     images w2 = directory_images p ->
     (forall key, key <> "directory_path" -> key <> "image_index" ->
        store_lookup key (settings w2) = store_lookup key (settings w)) ->
     no_reads t2 ->
     (forall q, EvReload q ∈ t2 -> q = p) ->
     (in_c_int k = true -> current w2 = model_index (directory_images p) k ->
        P (inr tt) w2 t2)
     /\ (in_c_int k = false -> current w2 = None ->
        P (inl OverflowError) w2 t2)) ->
  runs (load_directory directory_images reset_clears_current p k) w P.
Proof.
  clear path_of to_qbytearray qt_restore_geometry qt_restore_state.
  intros HP. pose proof (load_directory_facts w p k) as F. cbv zeta in F.
  unfold runs, result, final, trace in *.
  destruct (load_directory directory_images reset_clears_current p k w)
    as [[r w2] t2].
  simpl in F. destruct F as (-> & ? & Hc & ? & ? & ?).
  destruct (HP w2 t2) as [HP1 HP2]; auto.
  destruct (in_c_int k); auto.
Qed.

(** A list model has fewer than 2^31 rows ([rowCount()] is a C int), so an
    index outside the C int range is outside the list. *)
Lemma model_index_out_of_c_int (l : list Image) (k : Z) :
  Z.of_nat (length l) < 2 ^ 31 -> in_c_int k = false -> model_index l k = None.
Proof.
  unfold in_c_int, model_index. intros H E.
  destruct (0 <=? k) eqn:E1, (k <? Z.of_nat (length l)) eqn:E2; try reflexivity.
  apply Z.leb_le in E1. apply Z.ltb_lt in E2.
  apply andb_false_iff in E. destruct E as [E|E];
    [apply Z.leb_gt in E | apply Z.ltb_ge in E]; lia.
Qed.

Ltac sym_step :=
  lazymatch goal with
  | |- runs (mbind _ _) _ _ => apply runs_bind
  | |- runs (bindM _ _) _ _ => unfold bindM
  | |- runs (mret _) _ _ => apply runs_ret
  | |- runs get _ _ => apply runs_get
  | |- runs (modify _) _ _ => apply runs_modify
  | |- runs (emit _) _ _ => apply runs_emit
  | |- runs (raise _) _ _ => apply runs_raise
  | |- runs (load_directory _ _ _ _) _ _ =>
      apply runs_load; do 6 intro; split; do 2 intro
  | |- runs (lift ?r) _ _ => destruct r eqn:?; unfold lift
  | |- runs (if ?b then _ else _) _ _ =>
      lazymatch b with
      | match ?x with _ => _ end => destruct x eqn:?
      | _ => destruct b eqn:?
      end
  | |- runs (match ?x with _ => _ end) _ _ => destruct x eqn:?
  | |- runs (?f _ _ _ _) _ _ => unfold f
  | |- runs (?f _ _ _) _ _ => unfold f
  | |- runs (?f _ _) _ _ => unfold f
  | |- runs (?f _) _ _ => unfold f
  | |- runs ?f _ _ => unfold f
  end;
  cbn [settings images current tag_list editor_index
    viewer_index tag_counts central geometry window_state maximized
    font_size set_geometry set_window_state set_maximized
    set_font_size_field].

Ltac reload_leaf :=
  let p := fresh "p" in let Hp := fresh "Hp" in
  intros p Hp; rewrite <- ?app_assoc in Hp;
  repeat (rewrite elem_of_cons in Hp || rewrite elem_of_app in Hp
          || rewrite elem_of_nil in Hp);
  repeat match goal with H : _ \/ _ |- _ => destruct H end;
  try congruence; try contradiction;
  match goal with
  | Hr : forall q, EvReload q ∈ ?t -> q = _, H : EvReload _ ∈ ?t |- _ =>
      apply Hr in H; subst
  end;
  match goal with Hc : current ?w = _ |- current ?w = _ => rewrite Hc end;
  unfold restored_index;
  repeat match goal with E : store_lookup _ _ = _ |- _ => rewrite E in * end;
  cbv beta iota;
  repeat match goal with E : py_int _ = inr _ |- _ => rewrite E end;
  cbv beta iota;
  repeat match goal with E : in_c_int _ = _ |- _ => rewrite E end;
  first [reflexivity |
         match goal with E : in_c_int 0 = false |- _ => discriminate E end].

Ltac reads_simpl :=
  unfold unchecked_reads; rewrite <- ?app_assoc; simpl;
  rewrite ?unchecked_reads_no_reads, ?unchecked_reads_no_reads_nil
    by assumption; simpl.

Ltac reads_leaf := reads_simpl; eexists; reflexivity.

Ltac all_reads_leaf :=
  let Hr := fresh "Hr" in
  intros Hr; reads_simpl; first [reflexivity | simpl in Hr; discriminate Hr].

Ltac raise_leaf :=
  let H := fresh "H" in
  intros H; first [reflexivity |
    match goal with E : py_int (store_lookup "font_size" _) = _ |- _ =>
      rewrite E in H; discriminate end | discriminate H].

(** What [restore] does, by cases on the stored settings: the index it
    selects when it reloads a directory (none when [index()] overflows), the keys it reads without a
    presence check, and that a [font_size] that [int()] cannot convert
    makes it raise. *)
Lemma restore_runs (w : Window) :
  runs (restore directory_images reset_clears_current path_of to_qbytearray
      qt_restore_geometry qt_restore_state) w
    (fun r w' t =>
       (forall p, EvReload p ∈ t ->
          current w' = if in_c_int (restored_index (settings w))
                       then model_index (directory_images p)
                              (restored_index (settings w))
                       else None)
       /\ unchecked_reads t `prefix_of` ["window_state"; "font_size"]
       /\ (is_raised r = false ->
           unchecked_reads t = ["window_state"; "font_size"])
       /\ (is_raised (py_int (store_lookup "font_size" (settings w))) = true ->
           is_raised r = true)).
Proof.
  unfold restore.
  repeat sym_step.
  all: repeat match goal with
    | H : forall key, key <> _ -> key <> _ ->
            store_lookup key (settings ?w2) = _,
      E : context [store_lookup "font_size" (settings ?w2)] |- _ =>
        rewrite (H "font_size") in E by discriminate
    end.
  all: cbn [settings images current tag_list editor_index
    viewer_index tag_counts central geometry window_state maximized
    font_size set_geometry set_window_state set_maximized
    set_font_size_field] in *.
  all: split; [reload_leaf | split; [reads_leaf |
         split; [all_reads_leaf | raise_leaf]]].
Qed.

(** C3: a change of the current index to row [n] makes the image viewer
    show image [n] and the image tags editor load exactly image [n]'s tags
    into the image tag list model. *)
Theorem selecting_row_loads_image_and_tags (w : Window) (n : nat) :
  current w <> Some n ->
  let r := set_current_index (Some n) w in
  EvCurrentChanged (Some n) ∈ trace r
  /\ current (final r) = Some n
  /\ viewer_index (final r) = Some n
  /\ editor_index (final r) = Some n
  /\ tag_list (final r) = tags_at (images w) (Some n)
  /\ images (final r) = images w.
Proof.
  intros Hn r. subst r. run.
  destruct (decide (Some n = current w)) as [E|_]; [congruence|].
  simpl. repeat split; set_solver.
Qed.

(** C4: a directory chosen in the dialog is loaded with index 0 selected,
    and a directory reloaded by [restore] with the index stored under
    [image_index] (0 when there is none) selected; an index outside the
    list selects nothing.  The directory holds fewer than 2^31 images, the
    most a list model's C int [rowCount()] can report. *)
Theorem directory_load_selects_zero_or_restored (w : Window) (answer : string) :
  (answer <> EmptyString ->
   current (final (select_and_load_directory directory_images
                     reset_clears_current path_of answer w))
   = model_index (directory_images (path_of answer)) 0)
  /\ (forall p, Z.of_nat (length (directory_images p)) < 2 ^ 31 ->
      EvReload p ∈ trace (restore directory_images
                     reset_clears_current path_of to_qbytearray
      qt_restore_geometry qt_restore_state w) ->
      current (final (restore directory_images reset_clears_current path_of
                        to_qbytearray
      qt_restore_geometry qt_restore_state w))
      = model_index (directory_images p) (restored_index (settings w))).
Proof.
  split.
  - intros Ha.
    unfold select_and_load_directory, settings_contains, settings_value.
    unfold_monad; simpl.
    destruct (store_lookup "directory_path" (settings w)); simpl;
      rewrite (bool_decide_eq_false_2 _ Ha); use_load; assumption.
  - intros p Hl Hp. pose proof (restore_runs w) as R. unfold runs in R.
    unfold final, trace in *.
    destruct (restore directory_images reset_clears_current path_of
                to_qbytearray
      qt_restore_geometry qt_restore_state w) as [[r w'] t].
    cbn [fst snd] in *. destruct R as [R _]. rewrite (R p Hp).
    destruct (in_c_int (restored_index (settings w))) eqn:E; [reflexivity|].
    symmetry. apply model_index_out_of_c_int; assumption.
Qed.


(** More of what [load_directory] does: the reload, the two settings it
    writes, the panel it shows, and the parts of the window it leaves
    alone. *)
Lemma load_directory_more (w : Window) (p : string) (k : Z) :
  let r := load_directory directory_images reset_clears_current p k w in
  EvReload p ∈ trace r
  /\ store_lookup "directory_path" (settings (final r)) = Some (SStr p)
  /\ (in_c_int k = true -> forall n, model_index (directory_images p) k = Some n ->
        store_lookup "image_index" (settings (final r)) = Some (SInt (Z.of_nat n)))
  /\ (in_c_int k = true -> central (final r) = ImageViewerWidget)
  /\ geometry (final r) = geometry w
  /\ window_state (final r) = window_state w
  /\ maximized (final r) = maximized w
  /\ font_size (final r) = font_size w
  /\ tag_counts (final r) = tag_counts w.
Proof.
  clear path_of to_qbytearray qt_restore_geometry qt_restore_state.
  run_load w.
  all: split; [set_solver|].
  all: split; [store_simpl; reflexivity|].
  all: split; [intros Hk m Hm; first [discriminate Hk |
                 simplify_eq; store_simpl; reflexivity]|].
  all: split; [intros Hk; first [discriminate Hk | reflexivity]|].
  all: repeat split.
Qed.

Lemma runs_load_full (p : string) (k : Z) (w : Window) P :
  (forall w2 t2,
     images w2 = directory_images p ->
     (forall key, key <> "directory_path" -> key <> "image_index" ->
        store_lookup key (settings w2) = store_lookup key (settings w)) ->
     no_reads t2 ->
     (forall q, EvReload q ∈ t2 -> q = p) ->
     EvReload p ∈ t2 ->
     store_lookup "directory_path" (settings w2) = Some (SStr p) ->
     geometry w2 = geometry w ->
     window_state w2 = window_state w ->
     maximized w2 = maximized w ->
     font_size w2 = font_size w ->
     tag_counts w2 = tag_counts w ->
     (in_c_int k = true ->
        current w2 = model_index (directory_images p) k ->
        (forall n, model_index (directory_images p) k = Some n ->
           store_lookup "image_index" (settings w2) = Some (SInt (Z.of_nat n))) ->
        central w2 = ImageViewerWidget ->
        P (inr tt) w2 t2)
     /\ (in_c_int k = false -> current w2 = None ->
        P (inl OverflowError) w2 t2)) ->
  runs (load_directory directory_images reset_clears_current p k) w P.
Proof.
  clear path_of to_qbytearray qt_restore_geometry qt_restore_state.
  intros HP. pose proof (load_directory_facts w p k) as F.
  pose proof (load_directory_more w p k) as G. cbv zeta in F, G.
  unfold runs, result, final, trace in *.
  destruct (load_directory directory_images reset_clears_current p k w)
    as [[r w2] t2].
  simpl in F, G. destruct F as (-> & ? & Hc & ? & ? & ?).
  destruct G as (? & ? & Gi & Gc & ? & ? & ? & ? & ?).
  destruct (HP w2 t2) as [HP1 HP2]; auto.
  destruct (in_c_int k); auto.
Qed.

Ltac sym_step_full :=
  lazymatch goal with
  | |- runs (load_directory _ _ _ _) _ _ =>
      apply runs_load_full; do 13 intro; split; [do 4 intro | do 2 intro]
  | _ => sym_step
  end.

Ltac restore_sym :=
  unfold restore; repeat sym_step_full;
  cbn [settings images current tag_list editor_index
    viewer_index tag_counts central geometry window_state maximized
    font_size set_geometry set_window_state set_maximized
    set_font_size_field] in *.

Ltac ev_mem H :=
  rewrite <- ?app_assoc in H;
  repeat (rewrite elem_of_cons in H || rewrite elem_of_app in H
          || rewrite elem_of_nil in H);
  repeat match goal with H' : _ \/ _ |- _ => destruct H' end;
  try congruence; try contradiction.

Ltac rewrite_lookups :=
  repeat match goal with
  | E : store_lookup ?k ?s = _, H : context [store_lookup ?k ?s] |- _ =>
      rewrite E in H
  end; simplify_eq.

Lemma restore_frame_runs (w : Window) :
  runs (restore directory_images reset_clears_current path_of to_qbytearray
      qt_restore_geometry qt_restore_state) w
    (fun r w' t =>
       (forall key, key <> "directory_path" -> key <> "image_index" ->
          store_lookup key (settings w') = store_lookup key (settings w))
       /\ (store_lookup "geometry" (settings w) = None -> maximized w' = true)
       /\ tag_counts w' = tag_counts w).
Proof.
  restore_sym.
  all: split; [intros key ? ?; try reflexivity;
               match goal with
               | H : forall key, key <> _ -> key <> _ ->
                       store_lookup key (settings ?w2) = _ |- _ =>
                   rewrite H by assumption; reflexivity
               end|].
  all: split; [intros Hg; congruence | congruence].
Qed.

Lemma restore_load_runs (w : Window) :
  runs (restore directory_images reset_clears_current path_of to_qbytearray
      qt_restore_geometry qt_restore_state) w
    (fun r w' t =>
       (store_lookup "directory_path" (settings w) = None ->
          images w' = images w /\ current w' = current w
          /\ tag_list w' = tag_list w /\ (forall p, EvReload p ∉ t))
       /\ (forall v, store_lookup "image_index" (settings w) = Some v ->
           is_raised (py_int (Some v)) = true ->
           is_raised r = true /\ images w' = images w
           /\ current w' = current w /\ (forall p, EvReload p ∉ t))
       /\ (forall p, is_raised r = false ->
           store_lookup "directory_path" (settings w) = Some (SStr p) ->
           EvReload (path_of p) ∈ t /\ images w' = directory_images (path_of p)
           /\ central w' = ImageViewerWidget
           /\ store_lookup "directory_path" (settings w') = Some (SStr (path_of p))
           /\ in_c_int (restored_index (settings w)) = true)).
Proof.
  restore_sym.
  all: split; [intros Hd; try congruence;
               (split; [reflexivity | split; [reflexivity | split; [reflexivity |
                 intros p Hp; ev_mem Hp]]]) |].
  all: split; [intros v Hv Hbad; rewrite_lookups;
               try (match goal with P : py_int (Some _) = inr _ |- _ =>
                      rewrite P in Hbad; discriminate Hbad end);
               (split; [reflexivity | split; [reflexivity | split; [reflexivity |
                 intros p Hp; ev_mem Hp]]]) |].
  all: intros p Hr Hd; try (simpl in Hr; discriminate Hr); try congruence.
  all: rewrite_lookups; unfold py_Path in *; simplify_eq.
  all: (split; [set_solver | split; [assumption | split; [assumption |
         split; [assumption|]]]]).
  all: unfold restored_index;
    repeat match goal with
    | E : store_lookup _ _ = _ |- context [store_lookup _ _] => rewrite E
    end; cbv beta iota;
    repeat match goal with E : py_int _ = inr _ |- _ => rewrite E end;
    cbv beta iota; first [assumption | reflexivity].
Qed.

Lemma restore_font_runs (w : Window) :
  runs (restore directory_images reset_clears_current path_of to_qbytearray
      qt_restore_geometry qt_restore_state) w
    (fun r w' t =>
       forall n, is_raised r = false ->
       py_int (store_lookup "font_size" (settings w)) = inr n ->
       font_size w' = if 0 <? n then Some n else font_size w).
Proof.
  unfold restore; repeat sym_step_full.
  all: repeat match goal with
    | H : forall key, key <> _ -> key <> _ ->
            store_lookup key (settings ?w2) = _,
      E : context [store_lookup "font_size" (settings ?w2)] |- _ =>
        rewrite (H "font_size") in E by discriminate
    end.
  all: cbn [settings images current tag_list editor_index
    viewer_index tag_counts central geometry window_state maximized
    font_size set_geometry set_window_state set_maximized
    set_font_size_field] in *.
  all: repeat match goal with E : c_int ?z = inr _ |- _ =>
         unfold c_int in E; destruct (in_c_int z); [injection E as <- |
         discriminate E] end.
  all: intros ? Hr Hn; try (simpl in Hr; discriminate Hr).
  all: first [injection Hn as <- |
              match goal with E : py_int ?x = inr _ |- _ =>
                rewrite E in Hn; injection Hn as <- end].
  all: repeat match goal with Hf : font_size ?w2 = _ |- context [font_size ?w2] =>
         rewrite Hf end.
  all: reflexivity.
Qed.

(** C5 (amended): of the keys the main window reads, [geometry],
    [image_index] and [directory_path] are read only after a
    [settings.contains] of the same key, in [restore] and in
    [select_and_load_directory], with the fallbacks [showMaximized], index
    0 and no load when the key is missing; [window_state] (for
    [restoreState]) and [font_size] (in [set_font_size]) are read with no
    presence check, and a [restore] that returns normally has read both of
    them so. *)
Theorem settings_reads_checked_except_state_and_font (w : Window)
    (answer : string) :
  let r := restore directory_images reset_clears_current path_of
             to_qbytearray qt_restore_geometry qt_restore_state w in
  unchecked_reads (trace r) `prefix_of` ["window_state"; "font_size"]
  /\ (is_raised (result r) = false ->
      unchecked_reads (trace r) = ["window_state"; "font_size"])
  /\ unchecked_reads (trace (select_and_load_directory directory_images
                               reset_clears_current path_of answer w)) = []
  /\ (store_lookup "geometry" (settings w) = None -> maximized (final r) = true)
  /\ (store_lookup "image_index" (settings w) = None ->
      forall p, EvReload p ∈ trace r ->
      current (final r) = model_index (directory_images p) 0)
  /\ (store_lookup "directory_path" (settings w) = None ->
      forall p, EvReload p ∉ trace r).
Proof.
  intros r. pose proof (restore_runs w) as R.
  pose proof (restore_frame_runs w) as Fr.
  pose proof (restore_load_runs w) as L. unfold runs in R, Fr, L.
  split; [|split; [|split]].
  - subst r. unfold trace.
    destruct (restore directory_images reset_clears_current path_of
                to_qbytearray qt_restore_geometry qt_restore_state w)
      as [[x w'] t]. apply R.
  - subst r. unfold result, trace.
    destruct (restore directory_images reset_clears_current path_of
                to_qbytearray qt_restore_geometry qt_restore_state w)
      as [[x w'] t]. apply R.
  - unfold select_and_load_directory, settings_contains, settings_value.
    unfold_monad; simpl.
    destruct (store_lookup "directory_path" (settings w)); simpl;
      (destruct (bool_decide (answer = EmptyString)); simpl;
       [reflexivity | use_load; reads_simpl; reflexivity]).
  - subst r. unfold final, trace.
    destruct (restore directory_images reset_clears_current path_of
                to_qbytearray qt_restore_geometry qt_restore_state w)
      as [[x w'] t].
    cbn [fst snd] in *.
    split; [apply Fr|]. split.
    + intros Hi p Hp. destruct R as [R _]. rewrite (R p Hp).
      unfold restored_index. rewrite Hi. reflexivity.
    + intros Hd. apply L, Hd.
Qed.

Lemma set_current_index_new (w : Window) (n : nat) :
  current w <> Some n ->
  let r := set_current_index (Some n) w in
  result r = inr tt
  /\ current (final r) = Some n
  /\ tag_list (final r) = tags_at (images w) (Some n)
  /\ editor_index (final r) = Some n
  /\ viewer_index (final r) = Some n
  /\ images (final r) = images w
  /\ tag_counts (final r) = tag_counts w
  /\ settings (final r) = store_insert "image_index" (SInt (Z.of_nat n)) (settings w)
  /\ EvCurrentChanged (Some n) ∈ trace r.
Proof.
  clear directory_images reset_clears_current path_of to_qbytearray qt_restore_geometry qt_restore_state.
  intros Hn r. subst r.
  destruct w as [s0 imgs cur tl ed vw tc cen g st mx fs]; simpl in Hn.
  unfold set_current_index, current_changed, image_viewer_load_image,
    image_tags_editor_load_image_tags, settings_setValue. unfold_monad. simpl.
  rewrite decide_False by congruence. simpl.
  repeat split; set_solver.
Qed.

Lemma edit_tags_flush (w : Window) (op : TagOp) (n : nat) (img : Image)
    (l : list string) (s : TagSignal) :
  editor_index w = Some n -> images w !! n = Some img ->
  apply_tag_op op (tag_list w) = Some (l, s) -> s <> TagRowsInserted ->
  let r := edit_tags reset_clears_current op w in
  result r = inr tt
  /\ images (final r) = <[n := mkImage (image_path img) l]> (images w)
  /\ tag_list (final r) = l
  /\ tag_counts (final r) = count_tags (images (final r))
  /\ current (final r) = current w
  /\ editor_index (final r) = Some n
  /\ settings (final r) = settings w.
Proof.
  clear directory_images path_of to_qbytearray qt_restore_geometry qt_restore_state.
  intros He Hi Ha Hs r. subst r.
  destruct w as [s0 imgs cur tl ed vw tc cen g st mx fs]; simpl in *. subst ed.
  unfold edit_tags, on_tag_list_signal, update_image_list_model_tags,
    image_list_model_update_tags, on_image_list_signal, recount_tags.
  unfold_monad. simpl. rewrite Ha.
  destruct s; [| congruence | |]; simpl; rewrite Hi; simpl; repeat split.
Qed.

Lemma edit_tags_insert (w : Window) (r c : nat) :
  let w' := final (edit_tags reset_clears_current (TInsertRows r c) w) in
  images w' = images w /\ tag_counts w' = tag_counts w
  /\ current w' = current w /\ editor_index w' = editor_index w
  /\ settings w' = settings w.
Proof.
  clear directory_images path_of to_qbytearray qt_restore_geometry qt_restore_state.
  destruct w as [s0 imgs cur tl ed vw tc cen g st mx fs].
  unfold edit_tags, on_tag_list_signal. unfold_monad. simpl.
  destruct (decide _); simpl; repeat split.
Qed.

Lemma edit_tags_counts (w : Window) (op : TagOp) :
  tag_counts w = count_tags (images w) ->
  let w' := final (edit_tags reset_clears_current op w) in
  tag_counts w' = count_tags (images w').
Proof.
  clear directory_images path_of to_qbytearray qt_restore_geometry qt_restore_state.
  destruct w as [s0 imgs cur tl ed vw tc cen g st mx fs]. simpl. intros Hc.
  unfold edit_tags, on_tag_list_signal, update_image_list_model_tags,
    image_list_model_update_tags, on_image_list_signal, recount_tags.
  unfold_monad. simpl.
  destruct (apply_tag_op op tl) as [[l' []]|]; simpl; try exact Hc;
  destruct ed as [m|]; simpl; try exact Hc;
  destruct (imgs !! m); simpl; try exact Hc; reflexivity.
Qed.
Lemma model_index_row (l : list Image) (k : Z) (n : nat) :
  model_index l k = Some n -> Z.of_nat n = k /\ (n < length l)%nat.
Proof.
  unfold model_index. destruct (_ && _) eqn:E; [|discriminate].
  intros H. injection H as <-. apply andb_prop in E as [E1 E2].
  apply Z.leb_le in E1. apply Z.ltb_lt in E2. split; lia.
Qed.

Lemma model_index_of_row (l : list Image) (n : nat) :
  (n < length l)%nat -> model_index l (Z.of_nat n) = Some n.
Proof.
  intros H. unfold model_index.
  replace ((0 <=? Z.of_nat n) && (Z.of_nat n <? Z.of_nat (length l))) with true.
  - by rewrite Nat2Z.id.
  - symmetry. apply andb_true_intro. split; [apply Z.leb_le | apply Z.ltb_lt]; lia.
Qed.

(** [restore] writes no settings key other than [directory_path] and
    [image_index], and leaves the tag counts alone. *)
Theorem restore_writes_only_directory_and_index (w : Window) (key : string) :
  key <> "directory_path" -> key <> "image_index" ->
  let w' := final (restore directory_images reset_clears_current path_of
                     to_qbytearray
      qt_restore_geometry qt_restore_state w) in
  store_lookup key (settings w') = store_lookup key (settings w)
  /\ tag_counts w' = tag_counts w.
Proof.
  intros H1 H2. pose proof (restore_frame_runs w) as R. unfold runs in R.
  unfold final.
  destruct (restore directory_images reset_clears_current path_of
              to_qbytearray
      qt_restore_geometry qt_restore_state w) as [[r w'] t].
  destruct R as (F & _ & C). split; [apply F; assumption | exact C].
Qed.

(** With no stored geometry, [restore] maximizes the window. *)
Theorem restore_maximizes_without_geometry (w : Window) :
  store_lookup "geometry" (settings w) = None ->
  maximized (final (restore directory_images reset_clears_current path_of
                      to_qbytearray
      qt_restore_geometry qt_restore_state w)) = true.
Proof.
  intros H. pose proof (restore_frame_runs w) as R. unfold runs in R.
  unfold final.
  destruct (restore directory_images reset_clears_current path_of
              to_qbytearray
      qt_restore_geometry qt_restore_state w) as [[r w'] t].
  destruct R as (_ & M & _). exact (M H).
Qed.

(** Without a stored [directory_path], [restore] reloads nothing: the image
    list, the selection and the tag list stay as they were. *)
Theorem restore_without_directory_keeps_images (w : Window) :
  store_lookup "directory_path" (settings w) = None ->
  let r := restore directory_images reset_clears_current path_of
             to_qbytearray
      qt_restore_geometry qt_restore_state w in
  images (final r) = images w /\ current (final r) = current w
  /\ tag_list (final r) = tag_list w /\ (forall p, EvReload p ∉ trace r).
Proof.
  intros H. pose proof (restore_load_runs w) as R. unfold runs in R.
  cbv zeta. unfold final, trace.
  destruct (restore directory_images reset_clears_current path_of
              to_qbytearray
      qt_restore_geometry qt_restore_state w) as [[r w'] t].
  destruct R as (A & _ & _). exact (A H).
Qed.


(** What a [restore] that returns normally does with a stored directory. *)
Lemma restore_reload_facts (w : Window) (p : string) :
  store_lookup "directory_path" (settings w) = Some (SStr p) ->
  let r := restore directory_images reset_clears_current path_of
             to_qbytearray
      qt_restore_geometry qt_restore_state w in
  is_raised (result r) = false ->
  EvReload (path_of p) ∈ trace r
  /\ images (final r) = directory_images (path_of p)
  /\ current (final r) = model_index (directory_images (path_of p))
                           (restored_index (settings w))
  /\ central (final r) = ImageViewerWidget
  /\ store_lookup "directory_path" (settings (final r)) = Some (SStr (path_of p)).
Proof.
  intros Hd. pose proof (restore_load_runs w) as R. pose proof (restore_runs w) as Q.
  unfold runs in R, Q. cbv zeta. unfold result, final, trace.
  destruct (restore directory_images reset_clears_current path_of
              to_qbytearray
      qt_restore_geometry qt_restore_state w) as [[r w'] t].
  intros Hr. destruct R as (_ & _ & C).
  destruct (C p Hr Hd) as (E & I & Ce & D & Hk).
  destruct Q as (Q & _). rewrite Hk in Q.
  split; [exact E|split; [exact I|split; [exact (Q _ E)|]]].
  split; assumption.
Qed.

(** A [restore] that returns normally with a stored directory [p] reloads
    [Path(p)], selects the restored index in it, shows the image viewer and
    stores [str(Path(p))] back under [directory_path]. *)
Theorem restore_reloads_stored_directory (w : Window) (p : string) :
  store_lookup "directory_path" (settings w) = Some (SStr p) ->
  let r := restore directory_images reset_clears_current path_of
             to_qbytearray
      qt_restore_geometry qt_restore_state w in
  is_raised (result r) = false ->
  EvReload (path_of p) ∈ trace r
  /\ images (final r) = directory_images (path_of p)
  /\ current (final r) = model_index (directory_images (path_of p))
                           (restored_index (settings w))
  /\ central (final r) = ImageViewerWidget
  /\ store_lookup "directory_path" (settings (final r)) = Some (SStr (path_of p)).
Proof.
  exact (restore_reload_facts w p).
Qed.

(** Closing over a session: after [load_directory p k] selected row [n], a
    [restore] from the settings it left (returning normally, with [p]
    already in [str(Path())] form) reloads [p] and selects row [n] again.
    The directory holds fewer than 2^31 images, the most a list model's C
    int [rowCount()] can report. *)
Theorem session_round_trip_reselects_row (w w2 : Window) (p : string) (k : Z)
    (n : nat) :
  Z.of_nat (length (directory_images p)) < 2 ^ 31 ->
  model_index (directory_images p) k = Some n ->
  path_of p = p ->
  settings w2 = settings (final (load_directory directory_images
                                   reset_clears_current p k w)) ->
  let r := restore directory_images reset_clears_current path_of
             to_qbytearray
      qt_restore_geometry qt_restore_state w2 in
  is_raised (result r) = false ->
  current (final r) = Some n /\ images (final r) = directory_images p.
Proof.
  intros Hsz Hn Hp Hs r Hr.
  pose proof (load_directory_more w p k) as G. cbv zeta in G.
  destruct G as (_ & Gd & Gi & _). rewrite <- Hs in Gd, Gi.
  destruct (model_index_row _ _ _ Hn) as [Hk Hlen].
  assert (Hc : in_c_int k = true).
  { unfold in_c_int. apply andb_true_iff. rewrite Z.leb_le, Z.ltb_lt. lia. }
  specialize (Gi Hc n Hn).
  assert (Hri : restored_index (settings w2) = Z.of_nat n).
  { unfold restored_index. rewrite Gi. reflexivity. }
  pose proof (restore_reload_facts w2 p Gd Hr) as (_ & I & C & _).
  subst r. rewrite Hp in I, C. rewrite Hri, model_index_of_row in C by exact Hlen.
  split; assumption.
Qed.

(** A [restore] that returns normally applies the stored font size when
    [int()] of it is positive, and keeps the font otherwise. *)
Theorem restore_applies_font_size (w : Window) (n : Z) :
  py_int (store_lookup "font_size" (settings w)) = inr n ->
  let r := restore directory_images reset_clears_current path_of
             to_qbytearray
      qt_restore_geometry qt_restore_state w in
  is_raised (result r) = false ->
  font_size (final r) = if 0 <? n then Some n else font_size w.
Proof.
  intros Hn. pose proof (restore_font_runs w) as R. unfold runs in R.
  cbv zeta. unfold result, final.
  destruct (restore directory_images reset_clears_current path_of
              to_qbytearray
      qt_restore_geometry qt_restore_state w) as [[r w'] t].
  intros Hr. exact (R n Hr Hn).
Qed.

(** The initial directory [select_and_load_directory] hands to the dialog. *)
Lemma dialog_initial_value (w : Window) (answer : string) :
  EvDialog (match store_lookup "directory_path" (settings w) with
            | Some v => Some v
            | None => Some (SStr EmptyString)
            end)
  ∈ trace (select_and_load_directory directory_images reset_clears_current
             path_of answer w).
Proof.
  clear to_qbytearray qt_restore_geometry qt_restore_state.
  unfold select_and_load_directory, settings_contains, settings_value.
  unfold_monad. simpl.
  destruct (store_lookup "directory_path" (settings w)) eqn:E; simpl;
    destruct (bool_decide (answer = EmptyString)); simpl;
    try destruct (load_directory directory_images reset_clears_current
                    (path_of answer) 0 w) as [[r w2] t];
    simpl; rewrite ?E; rewrite ?elem_of_cons; auto.
Qed.

(** Selecting a row [n] other than the current one stores [n] under
    [image_index], writes no other settings key, leaves the tag counts
    alone, and leaves the editor in sync with the new selection. *)
Theorem selecting_new_row_persists_row (w : Window) (n : nat) :
  current w <> Some n ->
  let w' := final (set_current_index (Some n) w) in
  store_lookup "image_index" (settings w') = Some (SInt (Z.of_nat n))
  /\ (forall key, key <> "image_index" ->
        store_lookup key (settings w') = store_lookup key (settings w))
  /\ editor_in_sync w'
  /\ tag_counts w' = tag_counts w.
Proof.
  clear directory_images reset_clears_current path_of to_qbytearray qt_restore_geometry qt_restore_state.
  intros Hn w'. subst w'.
  destruct (set_current_index_new w n Hn)
    as (_ & Hc & Ht & He & _ & Hi & Htc & Hs & _).
  rewrite Hs. split; [store_simpl; reflexivity|].
  split; [intros key Hk; store_simpl; reflexivity|].
  split; [|exact Htc]. unfold editor_in_sync. rewrite He, Hc, Ht, Hi.
  split; reflexivity.
Qed.

(** [clearCurrentIndex] always leaves nothing selected and the image list
    as it was. With nothing selected it changes nothing else; otherwise the
    [currentChanged] slots run with the invalid index: the viewer and the
    editor are emptied and -1 is stored under [image_index]. *)
Theorem clear_current_index_effects (w : Window) :
  let r := clear_current_index w in
  result r = inr tt /\ current (final r) = None /\ images (final r) = images w
  /\ match current w with
     | None => final r = w /\ trace r = [EvClearCurrent]
     | Some _ =>
         editor_index (final r) = None /\ viewer_index (final r) = None
         /\ tag_list (final r) = []
         /\ store_lookup "image_index" (settings (final r)) = Some (SInt (-1))
         /\ EvCurrentChanged None ∈ trace r
     end.
Proof.
  clear directory_images reset_clears_current path_of to_qbytearray qt_restore_geometry qt_restore_state.
  destruct w as [s0 imgs cur tl ed vw tc cen g st mx fs].
  unfold clear_current_index, current_changed, image_viewer_load_image,
    image_tags_editor_load_image_tags, settings_setValue. unfold_monad.
  destruct cur as [m|]; simpl; [|repeat split].
  repeat split; [store_simpl; reflexivity | set_solver].
Qed.

(** An accepted edit of the tag list other than an insertion (a changed,
    removed or moved row) is written back at once to the image the editor
    shows: that image gets the edited list, every other image keeps its
    tags, and the tag counts are recomputed over all images. *)
Theorem tag_edit_flushes_to_image (w : Window) (op : TagOp) (n : nat)
    (img : Image) (l : list string) (s : TagSignal) :
  editor_index w = Some n -> images w !! n = Some img ->
  apply_tag_op op (tag_list w) = Some (l, s) -> s <> TagRowsInserted ->
  let w' := final (edit_tags reset_clears_current op w) in
  images w' !! n = Some (mkImage (image_path img) l)
  /\ (forall j, j <> n -> images w' !! j = images w !! j)
  /\ length (images w') = length (images w)
  /\ tag_counts w' = count_tags (images w')
  /\ settings w' = settings w.
Proof.
  clear directory_images path_of to_qbytearray qt_restore_geometry qt_restore_state.
  intros He Hi Ha Hs w'. subst w'.
  destruct (edit_tags_flush w op n img l s He Hi Ha Hs)
    as (_ & Him & _ & Hc & _ & _ & Hst).
  rewrite Him. split; [apply list_lookup_insert_eq; eapply lookup_lt_Some; eauto|].
  split; [intros j Hj; apply list_lookup_insert_ne; congruence|].
  split; [apply length_insert|]. split; [rewrite <- Him; exact Hc | exact Hst].
Qed.

(** Edits of the tag list keep the tag counts consistent: if the counts
    matched the images before an edit, they match them after it. *)
Theorem tag_counts_consistent_after_edit (w : Window) (op : TagOp) :
  tag_counts w = count_tags (images w) ->
  let w' := final (edit_tags reset_clears_current op w) in
  tag_counts w' = count_tags (images w').
Proof.
  clear directory_images path_of to_qbytearray qt_restore_geometry qt_restore_state.
  exact (edit_tags_counts w op).
Qed.

(** An edit flushed to image [n] survives a change of selection: after
    selecting another row [m] and then [n] again, the editor shows the
    edited tag list. *)
Theorem edit_then_reselect_keeps_edit (w : Window) (op : TagOp) (n m : nat)
    (img : Image) (l : list string) (s : TagSignal) :
  current w = Some n -> editor_index w = Some n -> images w !! n = Some img ->
  apply_tag_op op (tag_list w) = Some (l, s) -> s <> TagRowsInserted ->
  m <> n ->
  let w1 := final (edit_tags reset_clears_current op w) in
  let w3 := final (set_current_index (Some n)
                     (final (set_current_index (Some m) w1))) in
  tag_list w3 = l /\ images w3 = images w1.
Proof.
  clear directory_images path_of to_qbytearray qt_restore_geometry qt_restore_state.
  intros Hc He Hi Ha Hs Hm w1 w3. subst w1 w3.
  destruct (edit_tags_flush w op n img l s He Hi Ha Hs)
    as (_ & Him & _ & _ & Hc1 & _ & _).
  set (w1 := final (edit_tags reset_clears_current op w)) in *.
  assert (Hm1 : current w1 <> Some m) by (rewrite Hc1, Hc; congruence).
  destruct (set_current_index_new w1 m Hm1) as (_ & Hc2 & _ & _ & _ & Hi2 & _).
  set (w2 := final (set_current_index (Some m) w1)) in *.
  assert (Hn2 : current w2 <> Some n) by (rewrite Hc2; congruence).
  destruct (set_current_index_new w2 n Hn2) as (_ & _ & Ht3 & _ & _ & Hi3 & _).
  rewrite Ht3, Hi3, Hi2. split; [|reflexivity].
  simpl. rewrite Him, list_lookup_insert_eq by (eapply lookup_lt_Some; eauto).
  reflexivity.
Qed.

(** Rows inserted into the tag list of the selected image [n] are lost when
    the selection moves to another row and back: the editor then shows the
    image's tags from before the insertion. *)
Theorem insert_then_reselect_drops_rows (w : Window) (r c n m : nat) :
  editor_in_sync w -> current w = Some n -> m <> n ->
  (0 < c)%nat -> (r <= length (tag_list w))%nat ->
  let w1 := final (edit_tags reset_clears_current (TInsertRows r c) w) in
  let w3 := final (set_current_index (Some n)
                     (final (set_current_index (Some m) w1))) in
  length (tag_list w1) = (length (tag_list w) + c)%nat /\ tag_list w3 = tag_list w.
Proof.
  clear directory_images path_of to_qbytearray qt_restore_geometry qt_restore_state.
  intros [He Ht] Hc Hm Hpos Hr w1 w3. subst w1 w3.
  destruct (edit_tags_insert w r c) as (Hi1 & _ & Hc1 & _ & _).
  split.
  - destruct w as [s0 imgs cur tl ed vw tc cen g st mx fs]; simpl in *.
    unfold edit_tags, on_tag_list_signal. unfold_monad. simpl.
    rewrite decide_True by lia. simpl.
    rewrite !length_app, length_replicate, length_take, length_drop. lia.
  - set (w1 := final (edit_tags reset_clears_current (TInsertRows r c) w)) in *.
    assert (Hm1 : current w1 <> Some m) by (rewrite Hc1, Hc; congruence).
    destruct (set_current_index_new w1 m Hm1) as (_ & Hc2 & _ & _ & _ & Hi2 & _).
    set (w2 := final (set_current_index (Some m) w1)) in *.
    assert (Hn2 : current w2 <> Some n) by (rewrite Hc2; congruence).
    destruct (set_current_index_new w2 n Hn2) as (_ & _ & Ht3 & _ & _ & Hi3 & _).
    rewrite Ht3, Hi2, Hi1, Ht, Hc. reflexivity.
Qed.

(** After [load_directory p], the next [select_and_load_directory] opens the
    dialog at [p]. *)
Theorem dialog_opens_at_last_loaded_directory (w : Window) (p : string) (k : Z)
    (answer : string) :
  let w1 := final (load_directory directory_images reset_clears_current p k w) in
  EvDialog (Some (SStr p))
  ∈ trace (select_and_load_directory directory_images reset_clears_current
             path_of answer w1).
Proof.
  clear to_qbytearray qt_restore_geometry qt_restore_state.
  intros w1. pose proof (load_directory_more w p k) as G. cbv zeta in G.
  destruct G as (_ & Gd & _). subst w1.
  pose proof (dialog_initial_value
    (final (load_directory directory_images reset_clears_current p k w)) answer)
    as D.
  rewrite Gd in D. exact D.
Qed.

(** [load_directory] reads no setting, writes no settings key other than
    [directory_path] and [image_index], and leaves the window geometry,
    state, maximization and font size unchanged. *)
Theorem load_directory_keeps_window_frame (w : Window) (p : string) (k : Z) :
  let w' := final (load_directory directory_images reset_clears_current p k w) in
  no_reads (trace (load_directory directory_images reset_clears_current p k w))
  /\ (forall key, key <> "directory_path" -> key <> "image_index" ->
        store_lookup key (settings w') = store_lookup key (settings w))
  /\ geometry w' = geometry w /\ window_state w' = window_state w
  /\ maximized w' = maximized w /\ font_size w' = font_size w.
Proof.
  clear path_of to_qbytearray qt_restore_geometry qt_restore_state.
  pose proof (load_directory_facts w p k) as F.
  pose proof (load_directory_more w p k) as G. cbv zeta in *.
  destruct F as (_ & _ & _ & Fk & Fn & _).
  destruct G as (_ & _ & _ & _ & G1 & G2 & G3 & G4 & _).
  repeat split; assumption.
Qed.

End Proofs.

(** C1 (code bug): reloading with an image selected, when the new directory
    holds no image.  The model reset clears the current index without a
    [currentChanged] signal, so [clearCurrentIndex] has nothing to clear and
    [setCurrentIndex] on the invalid index changes nothing: no slot runs,
    and the image tag list model keeps the old image's tags while nothing
    is selected; the editor still points at row 0, which no longer exists. *)
Theorem empty_reload_keeps_stale_tags :
  editor_in_sync demo_window
  /\ (let w' := final (load_directory (fun _ => []) true "empty" 0 demo_window) in
      current w' = None
      /\ tag_list w' = ["cat"]
      /\ editor_index w' = Some 0%nat
      /\ ~ editor_in_sync w').
Proof.
  split; [split; reflexivity|].
  vm_compute. split; [reflexivity|split; [reflexivity|split; [reflexivity|]]].
  intros [_ H]. discriminate H.
Qed.

(** C2 (code bug): loading a directory of tagged images into a fresh window.
    Only the image list model's [dataChanged] is connected to
    [count_tags]; the reload announces itself by a model reset, so the tag
    counter keeps its old (empty) table while the images carry tags. *)
Theorem reload_leaves_tag_counts_stale (b : bool) :
  let w' := final (load_directory (fun _ => demo_images) b "photos" 0
                     fresh_window) in
  images w' = demo_images
  /\ tag_counts w' !! "cat" = None
  /\ count_tags (images w') !! "cat" = Some 1%nat.
Proof. destruct b; vm_compute; repeat split. Qed.

(** C5 (counterexample): restoring a saved session reads [window_state] and
    [font_size] without a [settings.contains] check. *)
Theorem restore_reads_unchecked :
  unchecked_reads (trace (restore (fun _ => []) false (fun s => s) bytes_value accept_data accept_data
                            saved_window))
  = ["window_state"; "font_size"].
Proof. vm_compute. reflexivity. Qed.

(** C7 (counterexample): a session whose stored [image_index] does not fit
    a C int.  [restore] reloads the stored directory and clears the current
    index, then [index()] raises OverflowError: the target index is never
    set and the image viewer is never shown. *)
Theorem restore_overflowing_index_skips_select_and_show :
  let r := restore (fun _ => demo_images) false (fun s => s) bytes_value
             accept_data accept_data overflow_index_window in
  EvReload "photos" ∈ trace r
  /\ selection_calls (trace r) = [EvClearCurrent]
  /\ result r = inl OverflowError
  /\ central (final r) = LoadDirectoryWidget.
Proof. vm_compute. split; [set_solver | repeat split]. Qed.

(* ------------------------------------------------------------------ *)
(** ** The theorems at concrete sessions *)

Lemma selecting_row_loads_image_and_tags_witness :
  current demo_window <> Some 1%nat
  /\ tag_list (final (set_current_index (Some 1%nat) demo_window)) = ["dog"; "sky"].
Proof.
  assert (H : current demo_window <> Some 1%nat) by (simpl; discriminate).
  split; [exact H|].
  destruct (selecting_row_loads_image_and_tags demo_window 1 H)
    as (_ & _ & _ & _ & T & _).
  rewrite T. reflexivity.
Defined.

Lemma directory_load_selects_zero_or_restored_witness :
  "photos" <> EmptyString
  /\ current (final (select_and_load_directory (fun _ => demo_images) true
                       (fun s => s) "photos" fresh_window)) = Some 0%nat.
Proof.
  assert (H : "photos" <> EmptyString) by discriminate.
  split; [exact H|].
  destruct (directory_load_selects_zero_or_restored (fun _ => demo_images) true
              (fun s => s) bytes_value accept_data accept_data fresh_window "photos") as [A _].
  rewrite (A H). reflexivity.
Defined.

Lemma load_directory_clear_select_show_witness :
  in_c_int 0 = true /\ model_index demo_images 0 = Some 0%nat
  /\ EvCurrentChanged (Some 0%nat)
       ∈ trace (load_directory (fun _ => demo_images) false "photos" 0 demo_window).
Proof.
  assert (Hk : in_c_int 0 = true) by reflexivity.
  assert (H : model_index demo_images 0 = Some 0%nat) by reflexivity.
  split; [exact Hk|]. split; [exact H|].
  destruct (load_directory_clear_select_show (fun _ => demo_images) false
              demo_window "photos" 0) as [A _].
  destruct (A Hk) as (_ & _ & C).
  apply (C 0%nat H).
Defined.

Lemma load_directory_persists_path_first_witness :
  current demo_window <> None
  /\ EvSetValue "image_index" (SInt (-1))
       ∈ trace (load_directory (fun _ => demo_images) false "photos" 0 demo_window).
Proof.
  assert (H : current demo_window <> None) by (simpl; discriminate).
  split; [exact H|].
  destruct (load_directory_persists_path_first (fun _ => demo_images) false
              demo_window "photos" 0) as (_ & _ & _ & C).
  apply (C eq_refl H).
Defined.

Lemma settings_reads_checked_except_state_and_font_witness :
  is_raised (result (restore (fun _ => []) false (fun s => s) bytes_value accept_data accept_data
                       saved_window)) = false
  /\ unchecked_reads (trace (restore (fun _ => []) false (fun s => s)
                               bytes_value accept_data accept_data saved_window))
     = ["window_state"; "font_size"].
Proof.
  assert (H : is_raised (result (restore (fun _ => []) false (fun s => s)
                                   bytes_value accept_data accept_data saved_window)) = false)
    by reflexivity.
  split; [exact H|].
  destruct (settings_reads_checked_except_state_and_font (fun _ => []) false
              (fun s => s) bytes_value accept_data accept_data saved_window EmptyString) as (_ & C & _).
  apply (C H).
Defined.


Lemma restore_writes_only_directory_and_index_witness :
  "font_size" <> "directory_path" /\ "font_size" <> "image_index"
  /\ store_lookup "font_size"
       (settings (final (restore (fun _ => demo_images) false (fun s => s)
                           bytes_value accept_data accept_data session_window)))
     = Some (SInt 11).
Proof.
  assert (H1 : "font_size" <> "directory_path") by discriminate.
  assert (H2 : "font_size" <> "image_index") by discriminate.
  split; [exact H1|]. split; [exact H2|].
  destruct (restore_writes_only_directory_and_index (fun _ => demo_images) false
              (fun s => s) bytes_value accept_data accept_data session_window "font_size" H1 H2) as [E _].
  rewrite E. reflexivity.
Defined.

Lemma restore_maximizes_without_geometry_witness :
  store_lookup "geometry" (settings fresh_window) = None
  /\ maximized (final (restore (fun _ => []) false (fun s => s) bytes_value accept_data accept_data
                         fresh_window)) = true.
Proof.
  assert (H : store_lookup "geometry" (settings fresh_window) = None)
    by reflexivity.
  split; [exact H|].
  apply (restore_maximizes_without_geometry (fun _ => []) false (fun s => s)
           bytes_value accept_data accept_data fresh_window H).
Defined.

Lemma restore_without_directory_keeps_images_witness :
  store_lookup "directory_path" (settings saved_window) = None
  /\ images (final (restore (fun _ => demo_images) false (fun s => s)
                      bytes_value accept_data accept_data saved_window)) = [].
Proof.
  assert (H : store_lookup "directory_path" (settings saved_window) = None)
    by reflexivity.
  split; [exact H|].
  destruct (restore_without_directory_keeps_images (fun _ => demo_images) false
              (fun s => s) bytes_value accept_data accept_data saved_window H) as [I _].
  rewrite I. reflexivity.
Defined.


Lemma restore_reloads_stored_directory_witness :
  store_lookup "directory_path" (settings session_window) = Some (SStr "photos")
  /\ is_raised (result (restore (fun _ => demo_images) false (fun s => s)
                          bytes_value accept_data accept_data session_window)) = false
  /\ current (final (restore (fun _ => demo_images) false (fun s => s)
                       bytes_value accept_data accept_data session_window)) = Some 1%nat.
Proof.
  assert (H1 : store_lookup "directory_path" (settings session_window)
               = Some (SStr "photos")) by reflexivity.
  assert (H2 : is_raised (result (restore (fun _ => demo_images) false
                 (fun s => s) bytes_value accept_data accept_data session_window)) = false)
    by reflexivity.
  split; [exact H1|]. split; [exact H2|].
  destruct (restore_reloads_stored_directory (fun _ => demo_images) false
              (fun s => s) bytes_value accept_data accept_data session_window "photos" H1 H2)
    as (_ & _ & C & _).
  rewrite C. reflexivity.
Defined.

Lemma session_round_trip_reselects_row_witness :
  Z.of_nat (length demo_images) < 2 ^ 31
  /\ model_index demo_images 1 = Some 1%nat
  /\ settings (set_settings (settings (final (load_directory (fun _ => demo_images)
        false "photos" 1 saved_window))) fresh_window)
     = settings (final (load_directory (fun _ => demo_images) false "photos" 1
                          saved_window))
  /\ is_raised (result (restore (fun _ => demo_images) false (fun s => s)
       bytes_value accept_data accept_data (set_settings (settings (final (load_directory
         (fun _ => demo_images) false "photos" 1 saved_window))) fresh_window)))
     = false
  /\ current (final (restore (fun _ => demo_images) false (fun s => s)
       bytes_value accept_data accept_data (set_settings (settings (final (load_directory
         (fun _ => demo_images) false "photos" 1 saved_window))) fresh_window)))
     = Some 1%nat.
Proof.
  assert (H0 : Z.of_nat (length demo_images) < 2 ^ 31)
    by (unfold Z.lt; reflexivity).
  assert (H1 : model_index demo_images 1 = Some 1%nat) by reflexivity.
  assert (H2 : settings (set_settings (settings (final (load_directory
        (fun _ => demo_images) false "photos" 1 saved_window))) fresh_window)
     = settings (final (load_directory (fun _ => demo_images) false "photos" 1
                          saved_window))) by reflexivity.
  assert (H3 : is_raised (result (restore (fun _ => demo_images) false
       (fun s => s) bytes_value accept_data accept_data (set_settings (settings (final (load_directory
         (fun _ => demo_images) false "photos" 1 saved_window))) fresh_window)))
     = false) by reflexivity.
  split; [exact H0|]. split; [exact H1|]. split; [exact H2|]. split; [exact H3|].
  destruct (session_round_trip_reselects_row (fun _ => demo_images) false
              (fun s => s) bytes_value accept_data accept_data saved_window _
              "photos" 1 1 H0 H1 eq_refl H2 H3)
    as [C _].
  exact C.
Defined.

Lemma restore_applies_font_size_witness :
  py_int (store_lookup "font_size" (settings saved_window)) = inr 11
  /\ is_raised (result (restore (fun _ => []) false (fun s => s) bytes_value accept_data accept_data
                          saved_window)) = false
  /\ font_size (final (restore (fun _ => []) false (fun s => s) bytes_value accept_data accept_data
                         saved_window)) = Some 11.
Proof.
  assert (H1 : py_int (store_lookup "font_size" (settings saved_window)) = inr 11)
    by reflexivity.
  assert (H2 : is_raised (result (restore (fun _ => []) false (fun s => s)
                 bytes_value accept_data accept_data saved_window)) = false) by reflexivity.
  split; [exact H1|]. split; [exact H2|].
  rewrite (restore_applies_font_size (fun _ => []) false (fun s => s)
             bytes_value accept_data accept_data saved_window 11 H1 H2).
  reflexivity.
Defined.

Lemma selecting_new_row_persists_row_witness :
  current demo_window <> Some 1%nat
  /\ store_lookup "image_index"
       (settings (final (set_current_index (Some 1%nat) demo_window)))
     = Some (SInt 1).
Proof.
  assert (H : current demo_window <> Some 1%nat) by (simpl; discriminate).
  split; [exact H|].
  destruct (selecting_new_row_persists_row demo_window 1 H) as [S _].
  exact S.
Defined.

Lemma tag_edit_flushes_to_image_witness :
  editor_index demo_window = Some 0%nat
  /\ images demo_window !! 0%nat = Some (mkImage "a.png" ["cat"])
  /\ apply_tag_op (TSetData 0 "kitten") (tag_list demo_window)
     = Some (["kitten"], TagDataChanged)
  /\ TagDataChanged <> TagRowsInserted
  /\ images (final (edit_tags false (TSetData 0 "kitten") demo_window)) !! 0%nat
     = Some (mkImage "a.png" ["kitten"]).
Proof.
  assert (H1 : editor_index demo_window = Some 0%nat) by reflexivity.
  assert (H2 : images demo_window !! 0%nat = Some (mkImage "a.png" ["cat"]))
    by reflexivity.
  assert (H3 : apply_tag_op (TSetData 0 "kitten") (tag_list demo_window)
               = Some (["kitten"], TagDataChanged)) by reflexivity.
  assert (H4 : TagDataChanged <> TagRowsInserted) by discriminate.
  split; [exact H1|]. split; [exact H2|]. split; [exact H3|]. split; [exact H4|].
  destruct (tag_edit_flushes_to_image false demo_window (TSetData 0 "kitten") 0
              _ _ _ H1 H2 H3 H4) as [I _].
  exact I.
Defined.

Lemma tag_counts_consistent_after_edit_witness :
  tag_counts (set_tag_counts (count_tags demo_images) demo_window)
  = count_tags (images (set_tag_counts (count_tags demo_images) demo_window))
  /\ tag_counts (final (edit_tags false (TSetData 0 "kitten")
                         (set_tag_counts (count_tags demo_images) demo_window)))
     = count_tags [mkImage "a.png" ["kitten"]; mkImage "b.png" ["dog"; "sky"]].
Proof.
  assert (H : tag_counts (set_tag_counts (count_tags demo_images) demo_window)
              = count_tags (images (set_tag_counts (count_tags demo_images)
                                      demo_window))) by reflexivity.
  split; [exact H|].
  rewrite (tag_counts_consistent_after_edit false
             (set_tag_counts (count_tags demo_images) demo_window)
             (TSetData 0 "kitten") H).
  reflexivity.
Defined.

Lemma edit_then_reselect_keeps_edit_witness :
  current demo_window = Some 0%nat /\ editor_index demo_window = Some 0%nat
  /\ images demo_window !! 0%nat = Some (mkImage "a.png" ["cat"])
  /\ apply_tag_op (TSetData 0 "kitten") (tag_list demo_window)
     = Some (["kitten"], TagDataChanged)
  /\ TagDataChanged <> TagRowsInserted /\ 1%nat <> 0%nat
  /\ tag_list (final (set_current_index (Some 0%nat)
       (final (set_current_index (Some 1%nat)
         (final (edit_tags false (TSetData 0 "kitten") demo_window))))))
     = ["kitten"].
Proof.
  assert (H0 : current demo_window = Some 0%nat) by reflexivity.
  assert (H1 : editor_index demo_window = Some 0%nat) by reflexivity.
  assert (H2 : images demo_window !! 0%nat = Some (mkImage "a.png" ["cat"]))
    by reflexivity.
  assert (H3 : apply_tag_op (TSetData 0 "kitten") (tag_list demo_window)
               = Some (["kitten"], TagDataChanged)) by reflexivity.
  assert (H4 : TagDataChanged <> TagRowsInserted) by discriminate.
  assert (H5 : 1%nat <> 0%nat) by lia.
  split; [exact H0|]. split; [exact H1|]. split; [exact H2|].
  split; [exact H3|]. split; [exact H4|]. split; [exact H5|].
  destruct (edit_then_reselect_keeps_edit false demo_window (TSetData 0 "kitten")
              0 1 _ _ _ H0 H1 H2 H3 H4 H5) as [T _].
  exact T.
Defined.

Lemma insert_then_reselect_drops_rows_witness :
  editor_in_sync demo_window /\ current demo_window = Some 0%nat
  /\ 1%nat <> 0%nat /\ (0 < 1)%nat /\ (0 <= length (tag_list demo_window))%nat
  /\ tag_list (final (set_current_index (Some 0%nat)
       (final (set_current_index (Some 1%nat)
         (final (edit_tags false (TInsertRows 0 1) demo_window))))))
     = ["cat"].
Proof.
  assert (H0 : editor_in_sync demo_window) by (split; reflexivity).
  assert (H1 : current demo_window = Some 0%nat) by reflexivity.
  assert (H2 : 1%nat <> 0%nat) by lia.
  assert (H3 : (0 < 1)%nat) by lia.
  assert (H4 : (0 <= length (tag_list demo_window))%nat) by (simpl; lia).
  split; [exact H0|]. split; [exact H1|]. split; [exact H2|].
  split; [exact H3|]. split; [exact H4|].
  destruct (insert_then_reselect_drops_rows false demo_window 0 1 0 1
              H0 H1 H2 H3 H4) as [_ T].
  exact T.
Defined.
